(** * The error boundary and the application shell of alx-rick-and-morty-app

    A shallow embedding of [components/ErrorBoundary.tsx] and [pages/_app.tsx].

    - The element trees the two components return are values of [ReactNode].
    - [console.log] and [Sentry.captureException] are effects on a chronological
      trace of [Event]s; a call of the reporter may return, throw, or hand back a
      promise that rejects.
    - The class [ErrorBoundary] is a record of its [props] and [state]; its
      methods are functions on that record.
    - The part played by the hosting framework (calling the static
      [getDerivedStateFromError] in the render phase and [componentDidCatch] in
      the commit phase, rendering the descendants) is the section
      "Hosting framework". *)

From Stdlib Require Import String List Lia.
Import ListNotations.
Open Scope string_scope.
Open Scope list_scope.

(* ------------------------------------------------------------------------- *)
(** ** Element trees *)
(* ------------------------------------------------------------------------- *)

(** Callbacks that occur as props.  [this_handleRetry] is the bound arrow
    function [this.handleRetry] of a boundary instance; any callback that belongs
    to a descendant is [descendant_handler]. *)
Inductive EventHandler : Type :=
| this_handleRetry
| descendant_handler (id : string).

(** The first argument of [createElement]: an intrinsic tag such as ["div"] or a
    component such as [ApolloProvider]. *)
Inductive ElementType : Type :=
| Host (tag : string)
| Composite (component : string).

(** Values of the props other than [children]. *)
Inductive PropValue : Type :=
| PString (s : string)
| PHandler (h : EventHandler)
| PObject (ref : string).

Definition Attrs : Type := list (string * PropValue).

(** [ReactNode]: nothing, a text, an array of nodes, or an element with its
    props; the [children] prop is kept apart from the other props. *)
#[warnings="-register-all"]
Inductive ReactNode : Type :=
| RNull
| RText (s : string)
| RArray (items : list ReactNode)
| RElement (type : ElementType) (attrs : Attrs) (kids : ReactNode).

(** The [children] prop that JSX builds from the children written between the
    tags: absent for none, the child itself for one, an array for several. *)
Definition childrenProp (written : list ReactNode) : ReactNode :=
  match written with
  | [] => RNull
  | [k] => k
  | _ => RArray written
  end.

Definition jsx (type : ElementType) (attrs : Attrs) (written : list ReactNode)
  : ReactNode :=
  RElement type attrs (childrenProp written).

(** The nodes directly below a node. *)
Definition childNodes (n : ReactNode) : list ReactNode :=
  match n with
  | RElement _ _ (RArray items) => items
  | RElement _ _ RNull => []
  | RElement _ _ k => [k]
  | RArray items => items
  | RNull | RText _ => []
  end.

Definition elementType (n : ReactNode) : option ElementType :=
  match n with
  | RElement t _ _ => Some t
  | _ => None
  end.

Fixpoint lookupAttr (key : string) (attrs : Attrs) : option PropValue :=
  match attrs with
  | [] => None
  | (k, v) :: rest => if String.eqb k key then Some v else lookupAttr key rest
  end.

Definition onClick (n : ReactNode) : option EventHandler :=
  match n with
  | RElement _ attrs _ =>
      match lookupAttr "onClick" attrs with
      | Some (PHandler h) => Some h
      | _ => None
      end
  | _ => None
  end.

(* ------------------------------------------------------------------------- *)
(** ** Errors, the console and the monitoring reporter *)
(* ------------------------------------------------------------------------- *)

(** A JavaScript [Error] and React's [ErrorInfo]. *)
Record Error : Type := { name : string; message : string }.

Definition newError (msg : string) : Error :=
  {| name := "Error"; message := msg |}.

Record ErrorInfo : Type := { componentStack : option string }.

(** The second argument of [Sentry.captureException] as the boundary builds it:
    [{ extra: errorInfo }]. *)
Record CaptureContext : Type := { extra : ErrorInfo }.

(** ** The boundary's state *)

Record State : Type := { hasError : bool }.

(** What happens, in the order it happens. *)
Inductive Event : Type :=
| EvStateUpdate (st : State)
| EvConsoleLog (label : string) (error : Error) (errorInfo : ErrorInfo)
| EvCapture (exception : Error) (hint : option CaptureContext).

(** How a statement ends. *)
Inductive Completion (A : Type) : Type :=
| Normal (a : A)
| Throw (x : Error).
Arguments Normal {A} a.
Arguments Throw {A} x.

(** Computations that append to the trace and may throw. *)
Definition Eff (A : Type) : Type := list Event -> Completion A * list Event.

Definition ret {A} (a : A) : Eff A := fun tr => (Normal a, tr).

Definition bind {A B} (c : Eff A) (k : A -> Eff B) : Eff B :=
  fun tr =>
    match c tr with
    | (Normal a, tr') => k a tr'
    | (Throw x, tr') => (Throw x, tr')
    end.

Declare Scope eff_scope.
Delimit Scope eff_scope with eff.
Notation "x <- c ;; k" := (bind c (fun x => k))
  (at level 61, c at next level, right associativity) : eff_scope.
Notation "c ;; k" := (bind c (fun _ => k))
  (at level 61, right associativity) : eff_scope.

Definition emit (ev : Event) : Eff unit := fun tr => (Normal tt, tr ++ [ev]).

(** [console.log(label, { error, errorInfo })]: writes and returns. *)
Definition console_log (label : string) (error : Error) (errorInfo : ErrorInfo)
  : Eff unit :=
  emit (EvConsoleLog label error errorInfo).

(** What a call of the reporter hands back when it returns: an event id, or a
    promise that rejects later. *)
Inductive Returned : Type :=
| EventId (id : string)
| RejectedPromise (reason : Error).

Inductive ReportOutcome : Type :=
| Returns (v : Returned)
| Throws (x : Error).

(** The reporter's behaviour is the environment's. *)
Definition Reporter : Type := Error -> option CaptureContext -> ReportOutcome.

Definition Sentry_captureException (reporter : Reporter)
  (exception : Error) (hint : option CaptureContext) : Eff Returned :=
  fun tr =>
    let tr' := tr ++ [EvCapture exception hint] in
    match reporter exception hint with
    | Returns v => (Normal v, tr')
    | Throws x => (Throw x, tr')
    end.

(* ------------------------------------------------------------------------- *)
(** ** components/ErrorBoundary.tsx *)
(* ------------------------------------------------------------------------- *)

Record ErrorBoundaryProps : Type := { children : ReactNode }.

Record ErrorBoundary : Type := { props : ErrorBoundaryProps; state : State }.

(** [constructor(props) { super(props); this.state = { hasError: false }; }] *)
Definition constructor (p : ErrorBoundaryProps) : ErrorBoundary :=
  {| props := p; state := {| hasError := false |} |}.

(** [static getDerivedStateFromError(): State]: no parameter. *)
Definition getDerivedStateFromError : State := {| hasError := true |}.

(** [componentDidCatch(error, errorInfo)]: the log, then the report; no handler
    around either. *)
Definition componentDidCatch (reporter : Reporter) (this : ErrorBoundary)
  (error : Error) (errorInfo : ErrorInfo) : Eff unit :=
  (console_log "Error caught in ErrorBoundary:" error errorInfo ;;
   _ <- Sentry_captureException reporter error (Some {| extra := errorInfo |}) ;;
   ret tt)%eff.

(** [this.setState(patch)]: the fields present in the patch replace the
    instance's. *)
Record StatePatch : Type := { hasError_patch : option bool }.

Definition setState (this : ErrorBoundary) (patch : StatePatch) : ErrorBoundary :=
  {| props := props this;
     state := {| hasError := match hasError_patch patch with
                             | Some v => v
                             | None => hasError (state this)
                             end |} |}.

(** [handleRetry = () => { this.setState({ hasError: false }); }] *)
Definition handleRetry (this : ErrorBoundary) : ErrorBoundary :=
  setState this {| hasError_patch := Some false |}.

(** The element tree returned by the first branch of [render]. *)
Definition fallbackView : ReactNode :=
  jsx (Host "div")
    [("className",
      PString "min-h-screen flex flex-col items-center justify-center bg-red-100 text-red-800")]
    [ jsx (Host "h2") [("className", PString "text-3xl font-bold")]
        [RText "Oops! Something went wrong."];
      jsx (Host "p") [("className", PString "mt-2")]
        [RText "Our team has been notified."];
      jsx (Host "button")
        [("onClick", PHandler this_handleRetry);
         ("className",
          PString "mt-4 px-4 py-2 bg-blue-600 text-white rounded-lg shadow-md hover:bg-blue-700")]
        [RText "Try again?"] ].

Definition render (this : ErrorBoundary) : ReactNode :=
  if hasError (state this) then fallbackView else children (props this).

(** Running a callback found in the boundary's own view. *)
Definition invokeHandler (h : EventHandler) (this : ErrorBoundary) : ErrorBoundary :=
  match h with
  | this_handleRetry => handleRetry this
  | descendant_handler _ => this
  end.

(** The methods of the class, and the state an instance holds once one of them
    has run: [componentDidCatch] and [render] never call [setState], the static
    [getDerivedStateFromError] yields the state the framework installs. *)
Inductive Method : Type :=
| M_getDerivedStateFromError
| M_componentDidCatch (error : Error) (errorInfo : ErrorInfo)
| M_handleRetry
| M_render.

Definition withState (this : ErrorBoundary) (st : State) : ErrorBoundary :=
  {| props := props this; state := st |}.

Definition invoke (m : Method) (this : ErrorBoundary) : ErrorBoundary :=
  match m with
  | M_getDerivedStateFromError => withState this getDerivedStateFromError
  | M_componentDidCatch _ _ => this
  | M_handleRetry => handleRetry this
  | M_render => this
  end.

Definition run (ms : list Method) (this : ErrorBoundary) : ErrorBoundary :=
  fold_left (fun b m => invoke m b) ms this.

(** One interception followed by one retry, [n] times over. *)
Fixpoint cycles (error : Error) (errorInfo : ErrorInfo) (n : nat) : list Method :=
  match n with
  | O => []
  | S k => M_getDerivedStateFromError :: M_componentDidCatch error errorInfo
             :: M_handleRetry :: cycles error errorInfo k
  end.

(* ------------------------------------------------------------------------- *)
(** ** Hosting framework *)
(* ------------------------------------------------------------------------- *)

(** Rendering the subtree below the boundary either produces output or raises,
    with the render-phase context the framework attaches. *)
Inductive RenderOutcome : Type :=
| Rendered (output : ReactNode)
| Raised (error : Error) (errorInfo : ErrorInfo).

Definition Descendants : Type := ReactNode -> RenderOutcome.

(** What one pass over the boundary leaves behind: the instance as the pass
    left it, what is on screen, how the pass ended, and the trace. *)
Record Pass : Type := {
  instance : ErrorBoundary;
  view : ReactNode;
  completion : Completion unit;
  trace : list Event
}.

(** A descendant raised while rendering.  React's contract for a class
    boundary: the render phase installs the state returned by the static
    [getDerivedStateFromError] and renders the boundary again; the commit phase
    that follows calls [componentDidCatch].  An exception that leaves
    [componentDidCatch] is not this boundary's to catch: its tree is taken down
    and nothing of it stays on screen. *)
Definition intercept (reporter : Reporter) (this : ErrorBoundary)
  (error : Error) (errorInfo : ErrorInfo) (tr : list Event) : Pass :=
  let this' := withState this getDerivedStateFromError in
  let shown := render this' in
  let '(c, tr') :=
    componentDidCatch reporter this' error errorInfo
      (tr ++ [EvStateUpdate (state this')]) in
  {| instance := this';
     view := match c with
             | Normal _ => shown
             | Throw _ => RNull
             end;
     completion := c;
     trace := tr' |}.

(** One render pass: the boundary's [render], then the subtree it returned.  The
    fallback view consists of intrinsic elements only. *)
Definition renderPass (reporter : Reporter) (descendants : Descendants)
  (this : ErrorBoundary) (tr : list Event) : Pass :=
  if hasError (state this) then
    {| instance := this; view := render this; completion := Normal tt; trace := tr |}
  else
    match descendants (render this) with
    | Rendered output =>
        {| instance := this; view := output; completion := Normal tt; trace := tr |}
    | Raised error errorInfo => intercept reporter this error errorInfo tr
    end.

Definition mount (reporter : Reporter) (descendants : Descendants)
  (p : ErrorBoundaryProps) (tr : list Event) : Pass :=
  renderPass reporter descendants (constructor p) tr.

(** The calls of the reporter recorded in a trace, oldest first. *)
Definition reports (tr : list Event) : list (Error * option CaptureContext) :=
  flat_map (fun ev => match ev with
                      | EvCapture e h => [(e, h)]
                      | _ => []
                      end) tr.

(* ------------------------------------------------------------------------- *)
(** ** pages/_app.tsx *)
(* ------------------------------------------------------------------------- *)

(** The [pageProps] object: its [key] entry and its [children] entry, if it has
    them, and its other entries. *)
Record PageProps : Type := {
  keyEntry : option string;
  childrenEntry : option ReactNode;
  otherEntries : Attrs
}.

Record AppProps : Type := { Component : string; pageProps : PageProps }.

Section Shell.

(** The default export of [@/graphql/apolloClient]. *)
Variable client : PropValue.

(** The page element [<Component {...pageProps} />].  The spread hands the
    entries of [pageProps] to the component as props, with the two exceptions
    JSX makes: a [children] entry becomes the element's children, and a [key]
    entry is taken out of the props to be the element's key, which [ReactNode]
    does not record. *)
Definition page (p : AppProps) : ReactNode :=
  RElement (Composite (Component p)) (otherEntries (pageProps p))
    (match childrenEntry (pageProps p) with
     | Some kids => kids
     | None => RNull
     end).

(** Between [<ErrorBoundary>] and the comment on the same line stands one
    blank, which JSX keeps as a text child; the comment and the line breaks
    leave nothing. *)
Definition App (p : AppProps) : ReactNode :=
  jsx (Composite "ApolloProvider") [("client", client)]
    [ jsx (Composite "ErrorBoundary") []
        [ RText " "; page p ] ].

End Shell.

(** The props an [<ErrorBoundary>] element hands to its instance. *)
Definition boundaryProps (el : ReactNode) : option ErrorBoundaryProps :=
  match el with
  | RElement (Composite "ErrorBoundary") _ kids => Some {| children := kids |}
  | _ => None
  end.

(** The state installations recorded in a trace. *)
Definition stateUpdates (tr : list Event) : list State :=
  flat_map (fun ev => match ev with
                      | EvStateUpdate st => [st]
                      | _ => []
                      end) tr.

(** The order of an interception's effects as the specification words it: the
    log entry, the report, and only then the state. *)
Definition specInterceptOrder (error : Error) (errorInfo : ErrorInfo) : list Event :=
  [EvConsoleLog "Error caught in ErrorBoundary:" error errorInfo;
   EvCapture error (Some {| extra := errorInfo |});
   EvStateUpdate {| hasError := true |}].

(** Sample inputs. *)
Definition sampleInfo : ErrorInfo := {| componentStack := Some "at Page" |}.
Definition sampleBoundary : ErrorBoundary := constructor {| children := RText "page" |}.
Definition reporterDown : Reporter := fun _ _ => Throws (newError "network down").
Definition reporterUp : Reporter := fun _ _ => Returns (EventId "e1").
Definition reporterRejecting : Reporter :=
  fun _ _ => Returns (RejectedPromise (newError "network down")).

(* ------------------------------------------------------------------------- *)
(** ** Sessions: render passes and clicks in sequence *)
(* ------------------------------------------------------------------------- *)

(** The console entries recorded in a trace, oldest first. *)
Definition logged (tr : list Event) : list (Error * ErrorInfo) :=
  flat_map (fun ev => match ev with
                      | EvConsoleLog _ e i => [(e, i)]
                      | _ => []
                      end) tr.

(** The report [componentDidCatch] makes of what it logs. *)
Definition reportOf (entry : Error * ErrorInfo) : Error * option CaptureContext :=
  (fst entry, Some {| extra := snd entry |}).

(** The click handler of the first node directly below a view that has one. *)
Definition retryControl (v : ReactNode) : option EventHandler :=
  match flat_map (fun n => match onClick n with
                           | Some h => [h]
                           | None => []
                           end) (childNodes v) with
  | h :: _ => Some h
  | [] => None
  end.

(** What happens to a mounted boundary: the framework renders it, its
    descendants behaving as given, or the user clicks the retry control. *)
Inductive Input : Type :=
| RenderWith (descendants : Descendants)
| ClickRetry.

(** Running a click handler: [this.handleRetry] calls [setState], so the
    framework installs the new state; the view stays until the next render. *)
Definition dispatch (h : EventHandler) (p : Pass) : Pass :=
  let this' := invokeHandler h (instance p) in
  {| instance := this';
     view := view p;
     completion := Normal tt;
     trace := trace p ++ match h with
                         | this_handleRetry => [EvStateUpdate (state this')]
                         | descendant_handler _ => []
                         end |}.

(** One input.  A click reaches the boundary only through a control of the view
    on screen.  Once an exception has left [componentDidCatch] the boundary's
    tree is down: no input reaches it and nothing is on screen. *)
Definition advance (reporter : Reporter) (inp : Input) (p : Pass) : Pass :=
  match completion p with
  | Throw _ => p
  | Normal _ =>
      match inp with
      | RenderWith descendants =>
          renderPass reporter descendants (instance p) (trace p)
      | ClickRetry =>
          match retryControl (view p) with
          | Some h => dispatch h p
          | None => p
          end
      end
  end.

Definition session (reporter : Reporter) (inputs : list Input) (p : Pass) : Pass :=
  fold_left (fun q inp => advance reporter inp q) inputs p.

(** A boundary that has been constructed and not yet rendered. *)
Definition constructed (p : ErrorBoundaryProps) : Pass :=
  {| instance := constructor p; view := RNull;
     completion := Normal tt; trace := [] |}.

(** A first render followed by [n] rounds of retry and render, the descendants
    behaving the same way each time. *)
Fixpoint retryRounds (descendants : Descendants) (n : nat) : list Input :=
  match n with
  | O => [RenderWith descendants]
  | S k => RenderWith descendants :: ClickRetry :: retryRounds descendants k
  end.

Definition retryClicks (inputs : list Input) : nat :=
  length (filter (fun inp => match inp with
                             | ClickRetry => true
                             | RenderWith _ => false
                             end) inputs).

(** More sample inputs. *)
Definition alwaysRaising : Descendants := fun _ => Raised (newError "x") sampleInfo.
Definition alwaysRendering : Descendants := fun n => Rendered n.

(* ------------------------------------------------------------------------- *)
(** ** Equations of the embedding *)
(* ------------------------------------------------------------------------- *)

Definition Healthy : State := {| hasError := false |}.
Definition Faulted : State := {| hasError := true |}.

Lemma state_cases (st : State) : st = Healthy \/ st = Faulted.
Proof. destruct st as [[|]]; [right | left]; reflexivity. Qed.

Lemma handleRetry_state (this : ErrorBoundary) : state (handleRetry this) = Healthy.
Proof. reflexivity. Qed.

Lemma handleRetry_props (this : ErrorBoundary) : props (handleRetry this) = props this.
Proof. reflexivity. Qed.

Lemma invoke_props (m : Method) (this : ErrorBoundary) :
  props (invoke m this) = props this.
Proof. destruct m; reflexivity. Qed.

Lemma run_app (ms ms' : list Method) (this : ErrorBoundary) :
  run (ms ++ ms') this = run ms' (run ms this).
Proof. unfold run. apply fold_left_app. Qed.

Lemma run_one_cycle (e : Error) (i : ErrorInfo) (this : ErrorBoundary) :
  run [M_getDerivedStateFromError; M_componentDidCatch e i; M_handleRetry] this
  = withState this Healthy.
Proof. reflexivity. Qed.

Lemma run_cycles_state (e : Error) (i : ErrorInfo) (n : nat) :
  forall this, state this = Healthy -> state (run (cycles e i n) this) = Healthy.
Proof.
  induction n as [|k IH]; intros this Hst.
  - exact Hst.
  - change (cycles e i (S k))
      with ([M_getDerivedStateFromError; M_componentDidCatch e i; M_handleRetry]
              ++ cycles e i k).
    rewrite run_app, run_one_cycle. apply IH. reflexivity.
Qed.

Lemma componentDidCatch_eq (reporter : Reporter) (this : ErrorBoundary)
  (e : Error) (i : ErrorInfo) (tr : list Event) :
  componentDidCatch reporter this e i tr
  = (match reporter e (Some {| extra := i |}) with
     | Returns _ => Normal tt
     | Throws x => Throw x
     end,
     tr ++ [EvConsoleLog "Error caught in ErrorBoundary:" e i;
            EvCapture e (Some {| extra := i |})]).
Proof.
  unfold componentDidCatch, bind, console_log, emit, Sentry_captureException, ret.
  rewrite <- app_assoc. simpl.
  destruct (reporter e (Some {| extra := i |})); reflexivity.
Qed.

Lemma intercept_eq (reporter : Reporter) (this : ErrorBoundary)
  (e : Error) (i : ErrorInfo) (tr : list Event) :
  intercept reporter this e i tr
  = {| instance := withState this Faulted;
       view := match reporter e (Some {| extra := i |}) with
               | Returns _ => fallbackView
               | Throws _ => RNull
               end;
       completion := match reporter e (Some {| extra := i |}) with
                     | Returns _ => Normal tt
                     | Throws x => Throw x
                     end;
       trace := tr ++ [EvStateUpdate Faulted;
                       EvConsoleLog "Error caught in ErrorBoundary:" e i;
                       EvCapture e (Some {| extra := i |})] |}.
Proof.
  unfold intercept. rewrite componentDidCatch_eq.
  rewrite <- app_assoc.
  destruct (reporter e (Some {| extra := i |})); reflexivity.
Qed.

Lemma reports_app (tr tr' : list Event) :
  reports (tr ++ tr') = reports tr ++ reports tr'.
Proof. unfold reports. apply flat_map_app. Qed.

(* ------------------------------------------------------------------------- *)
(** ** Render *)
(* ------------------------------------------------------------------------- *)

(** C1. [render] depends on the instance through its state and its children
    only; with [hasError] false it returns the children as they are, with
    [hasError] true it returns the fixed fallback view, whose three parts are a
    heading, a message and a button whose click handler is the retry. *)
Theorem render_by_state :
  forall this : ErrorBoundary,
    render this = (if hasError (state this) then fallbackView
                   else children (props this))
    /\ render (withState this Healthy) = children (props this)
    /\ render (withState this Faulted) = fallbackView
    /\ elementType fallbackView = Some (Host "div")
    /\ map elementType (childNodes fallbackView)
       = [Some (Host "h2"); Some (Host "p"); Some (Host "button")]
    /\ map childNodes (childNodes fallbackView)
       = [[RText "Oops! Something went wrong."];
          [RText "Our team has been notified."];
          [RText "Try again?"]]
    /\ map onClick (childNodes fallbackView) = [None; None; Some this_handleRetry]
    /\ invokeHandler this_handleRetry this = handleRetry this.
Proof.
  intro this. repeat split.
Qed.

(* ------------------------------------------------------------------------- *)
(** ** The two-state machine *)
(* ------------------------------------------------------------------------- *)

(** C2. A new instance is healthy.  The only method that takes a healthy
    instance to the faulted state is the state derivation run on interception,
    the only one that takes a faulted instance to the healthy state is the
    retry; every method that changes the state is one of these two, and every
    other method, and every render pass, leaves a faulted instance faulted.
    Neither state is final:
    each has a method that leaves it, and any number of interception-retry
    rounds ends healthy, ready to be faulted again. *)
Theorem boundary_transitions :
  (forall p, state (constructor p) = Healthy)
  /\ (forall this, state (invoke M_getDerivedStateFromError this) = Faulted)
  /\ (forall this, state (invoke M_handleRetry this) = Healthy)
  /\ (forall m this,
        state (invoke m this) <> state this ->
        (state this = Healthy /\ m = M_getDerivedStateFromError
         /\ state (invoke m this) = Faulted)
        \/ (state this = Faulted /\ m = M_handleRetry
            /\ state (invoke m this) = Healthy))
  /\ (forall m this,
        state this = Faulted -> m <> M_handleRetry ->
        state (invoke m this) = Faulted)
  /\ (forall reporter descendants this tr,
        state this = Faulted ->
        instance (renderPass reporter descendants this tr) = this)
  /\ (forall reporter this e i tr,
        state (instance (intercept reporter this e i tr)) = Faulted)
  /\ (forall this, exists m, state (invoke m this) <> state this)
  /\ (forall e i n p,
        state (run (cycles e i n) (constructor p)) = Healthy
        /\ state (run (cycles e i n ++ [M_getDerivedStateFromError])
                    (constructor p)) = Faulted).
Proof.
  split; [reflexivity|].
  split; [reflexivity|].
  split; [reflexivity|].
  split.
  { intros m this Hne.
    destruct (state_cases (state this)) as [Hs | Hs]; destruct m; simpl in *;
      rewrite ?handleRetry_state in *; rewrite Hs in *;
      try (exfalso; apply Hne; reflexivity).
    - left. repeat split.
    - right. repeat split. }
  split.
  { intros m this Hs Hm. destruct m; simpl; try assumption; try reflexivity.
    exfalso. apply Hm. reflexivity. }
  split.
  { intros reporter descendants this tr Hs. unfold renderPass.
    rewrite Hs. reflexivity. }
  split.
  { intros. rewrite intercept_eq. reflexivity. }
  split.
  { intro this. destruct (state_cases (state this)) as [Hs | Hs].
    - exists M_getDerivedStateFromError. simpl. rewrite Hs. discriminate.
    - exists M_handleRetry. simpl. rewrite Hs. discriminate. }
  intros e i n p. split.
  - apply run_cycles_state. reflexivity.
  - rewrite run_app. reflexivity.
Qed.

(* ------------------------------------------------------------------------- *)
(** ** Interception *)
(* ------------------------------------------------------------------------- *)

(** C3, as the code has it. Whatever the reporter does with an intercepted
    error (return, throw, or hand back a promise that rejects), the instance
    ends with [hasError] true, two reporters leave the same instance, and the
    boundary's [render] returns the fallback view.  The fallback view is on
    screen when the reporter's call returns, also with a promise that rejects
    later; when the call throws, the exception leaves the interception and
    nothing of the boundary stays on screen. *)
Theorem reporter_outcome_never_reaches_state :
  forall (reporter : Reporter) (this : ErrorBoundary) (e : Error) (i : ErrorInfo)
         (tr : list Event),
    hasError (state (instance (intercept reporter this e i tr))) = true
    /\ render (instance (intercept reporter this e i tr)) = fallbackView
    /\ (forall reporter' : Reporter,
          instance (intercept reporter' this e i tr)
          = instance (intercept reporter this e i tr))
    /\ (forall x : Error,
          state (instance (intercept (fun _ _ => Throws x) this e i tr)) = Faulted
          /\ state (instance (intercept (fun _ _ => Returns (RejectedPromise x))
                                this e i tr)) = Faulted)
    /\ (forall v : Returned,
          reporter e (Some {| extra := i |}) = Returns v ->
          view (intercept reporter this e i tr) = fallbackView
          /\ completion (intercept reporter this e i tr) = Normal tt)
    /\ (forall x : Error,
          view (intercept (fun _ _ => Returns (RejectedPromise x)) this e i tr)
          = fallbackView)
    /\ (forall x : Error,
          reporter e (Some {| extra := i |}) = Throws x ->
          view (intercept reporter this e i tr) = RNull
          /\ completion (intercept reporter this e i tr) = Throw x).
Proof.
  intros reporter this e i tr.
  split; [now rewrite intercept_eq|].
  split; [now rewrite intercept_eq|].
  split; [intro reporter'; now rewrite !intercept_eq|].
  split; [intro x; now rewrite !intercept_eq|].
  split; [intros v Hv; rewrite intercept_eq, Hv; split; reflexivity|].
  split; [intro x; now rewrite intercept_eq|].
  intros x Hx. rewrite intercept_eq, Hx. split; reflexivity.
Qed.

(** C3 fails when the reporter throws: [hasError] is true, but what is on
    screen is not the fallback view. *)
Lemma reporter_throw_takes_fallback_down :
  hasError (state (instance (intercept reporterDown sampleBoundary (newError "x")
                               sampleInfo []))) = true
  /\ view (intercept reporterDown sampleBoundary (newError "x") sampleInfo [])
     = RNull
  /\ view (intercept reporterDown sampleBoundary (newError "x") sampleInfo [])
     <> fallbackView.
Proof.
  split; [reflexivity|]. split; [reflexivity|].
  cbn. unfold fallbackView, jsx. discriminate.
Qed.

(** C4, as the code has it. [componentDidCatch] has no handler of its own: it
    completes normally when the reporter's call returns (an event id or a
    promise that rejects later, which is dropped), and when the call throws, the
    same exception leaves [componentDidCatch] and the interception; the log
    entry and the call are on the trace in both cases. *)
Theorem componentDidCatch_completion :
  forall (reporter : Reporter) (this : ErrorBoundary) (e : Error) (i : ErrorInfo)
         (tr : list Event),
    fst (componentDidCatch reporter this e i tr)
    = match reporter e (Some {| extra := i |}) with
      | Returns _ => Normal tt
      | Throws x => Throw x
      end
    /\ completion (intercept reporter this e i tr)
       = fst (componentDidCatch reporter this e i tr)
    /\ snd (componentDidCatch reporter this e i tr)
       = tr ++ [EvConsoleLog "Error caught in ErrorBoundary:" e i;
                EvCapture e (Some {| extra := i |})].
Proof.
  intros. rewrite intercept_eq, componentDidCatch_eq. repeat split.
Qed.

(** C4 fails when the reporter throws: the exception comes out of
    [componentDidCatch] and out of the interception. *)
Lemma reporter_throw_propagates :
  fst (componentDidCatch reporterDown sampleBoundary (newError "x") sampleInfo [])
  = Throw (newError "network down")
  /\ completion (intercept reporterDown sampleBoundary (newError "x") sampleInfo [])
     = Throw (newError "network down")
  /\ completion (intercept reporterDown sampleBoundary (newError "x") sampleInfo [])
     <> Normal tt.
Proof. repeat split. discriminate. Qed.

(** C5, as the code has it. Within [componentDidCatch] the log entry precedes
    the reporter's call and no state is installed; the state with [hasError]
    true comes from [getDerivedStateFromError], which runs before
    [componentDidCatch], so on the trace of an interception the state update
    stands first, the log entry second and the report third. *)
Theorem intercept_effect_order :
  forall (reporter : Reporter) (this : ErrorBoundary) (e : Error) (i : ErrorInfo)
         (tr : list Event),
    trace (intercept reporter this e i tr)
    = tr ++ [EvStateUpdate {| hasError := true |};
             EvConsoleLog "Error caught in ErrorBoundary:" e i;
             EvCapture e (Some {| extra := i |})]
    /\ snd (componentDidCatch reporter this e i tr)
       = tr ++ [EvConsoleLog "Error caught in ErrorBoundary:" e i;
                EvCapture e (Some {| extra := i |})]
    /\ stateUpdates (snd (componentDidCatch reporter this e i tr))
       = stateUpdates tr.
Proof.
  intros. rewrite intercept_eq, componentDidCatch_eq. cbn [fst snd trace].
  repeat split.
  unfold stateUpdates. rewrite flat_map_app. simpl. apply app_nil_r.
Qed.

(** C5 fails as worded: the trace of an interception is not the log, the
    report and then the state. *)
Lemma intercept_order_differs :
  trace (intercept reporterUp sampleBoundary (newError "x") sampleInfo [])
  = [EvStateUpdate {| hasError := true |};
     EvConsoleLog "Error caught in ErrorBoundary:" (newError "x") sampleInfo;
     EvCapture (newError "x") (Some {| extra := sampleInfo |})]
  /\ trace (intercept reporterUp sampleBoundary (newError "x") sampleInfo [])
     <> specInterceptOrder (newError "x") sampleInfo.
Proof. split; [reflexivity | discriminate]. Qed.

(** C6. An interception adds exactly one call of the reporter, made with the
    intercepted error itself and the context [{ extra: errorInfo }], which is
    not null; a pass over a healthy boundary reports the error its descendants
    raise and nothing when they render.  A child that throws [Error("x")] gives
    one report, with message ["x"]; a child that renders gives none. *)
Theorem one_report_per_interception :
  (forall (reporter : Reporter) (this : ErrorBoundary) (e : Error) (i : ErrorInfo)
          (tr : list Event),
      reports (trace (intercept reporter this e i tr))
      = reports tr ++ [(e, Some {| extra := i |})]
      /\ length (reports (trace (intercept reporter this e i tr)))
         = S (length (reports tr)))
  /\ (forall (reporter : Reporter) (descendants : Descendants)
             (p : ErrorBoundaryProps) (tr : list Event),
        reports (trace (mount reporter descendants p tr))
        = reports tr ++ match descendants (children p) with
                        | Raised e i => [(e, Some {| extra := i |})]
                        | Rendered _ => []
                        end)
  /\ (forall (reporter : Reporter) (p : ErrorBoundaryProps) (i : ErrorInfo),
        reports (trace (mount reporter (fun _ => Raised (newError "x") i) p []))
        = [(newError "x", Some {| extra := i |})]
        /\ map (fun r => message (fst r))
             (reports (trace (mount reporter (fun _ => Raised (newError "x") i) p [])))
           = ["x"]
        /\ render (instance (mount reporter (fun _ => Raised (newError "x") i) p []))
           = fallbackView
        /\ (forall v : Returned,
              reporter (newError "x") (Some {| extra := i |}) = Returns v ->
              view (mount reporter (fun _ => Raised (newError "x") i) p [])
              = fallbackView))
  /\ (forall (reporter : Reporter) (p : ErrorBoundaryProps) (out : ReactNode),
        reports (trace (mount reporter (fun _ => Rendered out) p [])) = []
        /\ view (mount reporter (fun _ => Rendered out) p []) = out).
Proof.
  split.
  { intros. rewrite intercept_eq. cbn [trace]. rewrite reports_app. simpl.
    split; [reflexivity|]. rewrite length_app. simpl. lia. }
  split.
  { intros. unfold mount, renderPass. cbn [constructor state hasError render props].
    destruct (descendants (children p)) as [out | e i].
    - cbn [trace]. now rewrite app_nil_r.
    - rewrite intercept_eq. cbn [trace]. now rewrite reports_app. }
  split.
  { intros. unfold mount, renderPass. cbn [constructor state hasError render props].
    rewrite intercept_eq. cbn [instance view trace].
    split; [reflexivity|]. split; [reflexivity|]. split; [reflexivity|].
    intros v Hv. now rewrite Hv. }
  intros. repeat split.
Qed.

(** C10. The instance an interception leaves does not depend on the error,
    on its render-phase context, or on the reporter: for any two errors the
    state is [{ hasError: true }] and the boundary's [render] returns the same
    fixed fallback view, which is what is on screen for both when the
    reporter's calls return.  The error reaches the trace in the log entry and
    in the reporter's call; the state updates on the trace are the same for
    both errors. *)
Theorem interception_state_ignores_error :
  forall (r1 r2 : Reporter) (this : ErrorBoundary) (e1 e2 : Error)
         (i1 i2 : ErrorInfo) (tr : list Event),
    instance (intercept r1 this e1 i1 tr) = instance (intercept r2 this e2 i2 tr)
    /\ state (instance (intercept r1 this e1 i1 tr)) = {| hasError := true |}
    /\ getDerivedStateFromError = {| hasError := true |}
    /\ render (instance (intercept r1 this e1 i1 tr)) = fallbackView
    /\ render (instance (intercept r2 this e2 i2 tr)) = fallbackView
    /\ (forall v1 v2 : Returned,
          r1 e1 (Some {| extra := i1 |}) = Returns v1 ->
          r2 e2 (Some {| extra := i2 |}) = Returns v2 ->
          view (intercept r1 this e1 i1 tr) = fallbackView
          /\ view (intercept r2 this e2 i2 tr) = fallbackView)
    /\ stateUpdates (trace (intercept r1 this e1 i1 tr))
       = stateUpdates (trace (intercept r2 this e2 i2 tr))
    /\ trace (intercept r1 this e1 i1 tr)
       = tr ++ [EvStateUpdate {| hasError := true |};
                EvConsoleLog "Error caught in ErrorBoundary:" e1 i1;
                EvCapture e1 (Some {| extra := i1 |})].
Proof.
  intros. rewrite !intercept_eq. cbn [instance view trace state withState].
  split; [reflexivity|]. split; [reflexivity|]. split; [reflexivity|].
  split; [reflexivity|]. split; [reflexivity|].
  split; [intros v1 v2 H1 H2; now rewrite H1, H2|].
  split; [|reflexivity].
  unfold stateUpdates. now rewrite !flat_map_app.
Qed.

(* ------------------------------------------------------------------------- *)
(** ** Transparency and retry *)
(* ------------------------------------------------------------------------- *)

(** C7. While [hasError] is false the boundary renders to its children, so
    whatever renders the subtree gives for the boundary's output what it gives
    for the subtree alone; a pass whose descendants render shows their output
    and leaves instance and trace as they were. *)
Theorem healthy_boundary_transparent :
  forall this : ErrorBoundary,
    hasError (state this) = false ->
    render this = children (props this)
    /\ (forall descendants : Descendants,
          descendants (render this) = descendants (children (props this)))
    /\ (forall (reporter : Reporter) (descendants : Descendants)
               (tr : list Event) (out : ReactNode),
          descendants (children (props this)) = Rendered out ->
          renderPass reporter descendants this tr
          = {| instance := this; view := out;
               completion := Normal tt; trace := tr |}).
Proof.
  intros this Hh.
  assert (Hr : render this = children (props this))
    by (unfold render; now rewrite Hh).
  split; [exact Hr|]. split.
  - intro descendants. now rewrite Hr.
  - intros reporter descendants tr out Hd.
    unfold renderPass. now rewrite Hh, Hr, Hd.
Qed.

Lemma healthy_boundary_transparent_witness :
  hasError (state sampleBoundary) = false
  /\ render sampleBoundary = RText "page".
Proof.
  split; [reflexivity|].
  exact (proj1 (healthy_boundary_transparent sampleBoundary eq_refl)).
Defined.

(** C8. On a faulted instance the retry sets [hasError] to false and changes
    nothing else: the props, and with them the children subtree, are the ones
    the instance had.  The next render returns that subtree, and the next pass
    renders it again: its output if it renders, a new interception if it
    raises. *)
Theorem retry_resets_flag_only :
  forall this : ErrorBoundary,
    hasError (state this) = true ->
    hasError (state (handleRetry this)) = false
    /\ handleRetry this = withState this Healthy
    /\ props (handleRetry this) = props this
    /\ render (handleRetry this) = children (props this)
    /\ (forall (reporter : Reporter) (descendants : Descendants) (tr : list Event),
          renderPass reporter descendants (handleRetry this) tr
          = match descendants (children (props this)) with
            | Rendered out =>
                {| instance := handleRetry this; view := out;
                   completion := Normal tt; trace := tr |}
            | Raised e i => intercept reporter (handleRetry this) e i tr
            end).
Proof.
  intros this _. repeat split.
Qed.

Lemma retry_resets_flag_only_witness :
  hasError (state (withState sampleBoundary Faulted)) = true
  /\ render (handleRetry (withState sampleBoundary Faulted)) = RText "page".
Proof.
  split; [reflexivity|].
  exact (proj1 (proj2 (proj2 (proj2
           (retry_resets_flag_only (withState sampleBoundary Faulted) eq_refl))))).
Defined.

(* ------------------------------------------------------------------------- *)
(** ** The application shell *)
(* ------------------------------------------------------------------------- *)

(** C9. [App] returns the provider element, whose only child is the boundary
    element, whose children are a blank text and the page element; the page is
    thus inside the boundary and the boundary inside the provider.  The element
    carries the client and the page props and no callback, and a boundary
    mounted with these children renders them as they are. *)
Theorem App_nesting :
  forall (client : PropValue) (p : AppProps),
    elementType (App client p) = Some (Composite "ApolloProvider")
    /\ onClick (App client p) = None
    /\ exists boundary : ReactNode,
         childNodes (App client p) = [boundary]
         /\ elementType boundary = Some (Composite "ErrorBoundary")
         /\ childNodes boundary = [RText " "; page p]
         /\ elementType (page p) = Some (Composite (Component p))
         /\ In (page p) (childNodes boundary)
         /\ In boundary (childNodes (App client p))
         /\ boundaryProps boundary
            = Some {| children := RArray [RText " "; page p] |}
         /\ render (constructor {| children := RArray [RText " "; page p] |})
            = RArray [RText " "; page p].
Proof.
  intros client p. split; [reflexivity|]. split; [reflexivity|].
  eexists. split; [reflexivity|].
  repeat split; simpl; auto.
Qed.

(* ------------------------------------------------------------------------- *)
(** ** Sessions *)
(* ------------------------------------------------------------------------- *)

Lemma retryControl_fallbackView : retryControl fallbackView = Some this_handleRetry.
Proof. reflexivity. Qed.

Lemma logged_app (tr tr' : list Event) :
  logged (tr ++ tr') = logged tr ++ logged tr'.
Proof. unfold logged. apply flat_map_app. Qed.

Lemma session_cons (reporter : Reporter) (inp : Input) (rest : list Input) (p : Pass) :
  session reporter (inp :: rest) p = session reporter rest (advance reporter inp p).
Proof. reflexivity. Qed.

Lemma handleRetry_idempotent (this : ErrorBoundary) :
  handleRetry (handleRetry this) = handleRetry this.
Proof. reflexivity. Qed.

(** The cases of one input: abandoned, render while faulted, render with the
    descendants rendering or raising, click on the retry control, on a
    descendant's control, or on nothing. *)
Ltac advance_cases q inp :=
  unfold advance;
  destruct (completion q) as [[]|x] eqn:Hcq;
  [ destruct inp as [d|];
    [ unfold renderPass;
      destruct (hasError (state (instance q))) eqn:Hfl;
      [ | destruct (d (render (instance q))) as [out|e i];
          [ | rewrite intercept_eq ] ]
    | destruct (retryControl (view q)) as [[|id]|]; unfold dispatch ]
  | ];
  cbn [instance view completion trace invokeHandler].

Lemma advance_faulted_render (reporter : Reporter) (d : Descendants)
  (this : ErrorBoundary) (v : ReactNode) (tr : list Event) :
  hasError (state this) = true ->
  advance reporter (RenderWith d)
    {| instance := this; view := v; completion := Normal tt; trace := tr |}
  = {| instance := this; view := fallbackView; completion := Normal tt; trace := tr |}.
Proof.
  intro Hf. unfold advance, renderPass, render. cbn [completion instance trace].
  now rewrite Hf.
Qed.

Lemma advance_healthy_raise (reporter : Reporter) (d : Descendants)
  (this : ErrorBoundary) (v0 : ReactNode) (tr : list Event)
  (e : Error) (i : ErrorInfo) (v : Returned) :
  hasError (state this) = false ->
  d (children (props this)) = Raised e i ->
  reporter e (Some {| extra := i |}) = Returns v ->
  advance reporter (RenderWith d)
    {| instance := this; view := v0; completion := Normal tt; trace := tr |}
  = {| instance := withState this Faulted; view := fallbackView;
       completion := Normal tt;
       trace := tr ++ [EvStateUpdate Faulted;
                       EvConsoleLog "Error caught in ErrorBoundary:" e i;
                       EvCapture e (Some {| extra := i |})] |}.
Proof.
  intros Hh Hd Hr. unfold advance, renderPass, render.
  cbn [completion instance trace].
  now rewrite Hh, Hd, intercept_eq, Hr.
Qed.

Lemma advance_healthy_render (reporter : Reporter) (d : Descendants)
  (this : ErrorBoundary) (v0 : ReactNode) (tr : list Event) (out : ReactNode) :
  hasError (state this) = false ->
  d (children (props this)) = Rendered out ->
  advance reporter (RenderWith d)
    {| instance := this; view := v0; completion := Normal tt; trace := tr |}
  = {| instance := this; view := out; completion := Normal tt; trace := tr |}.
Proof.
  intros Hh Hd. unfold advance, renderPass, render.
  cbn [completion instance trace].
  now rewrite Hh, Hd.
Qed.

Lemma advance_click_fallback (reporter : Reporter) (this : ErrorBoundary)
  (tr : list Event) :
  advance reporter ClickRetry
    {| instance := this; view := fallbackView;
       completion := Normal tt; trace := tr |}
  = {| instance := handleRetry this; view := fallbackView;
       completion := Normal tt; trace := tr ++ [EvStateUpdate Healthy] |}.
Proof. reflexivity. Qed.

(** X1. On an instance whose [hasError] is false the retry changes nothing:
    the instance and what it renders stay as they are. *)
Theorem retry_noop_when_healthy :
  forall this : ErrorBoundary,
    hasError (state this) = false ->
    handleRetry this = this /\ render (handleRetry this) = render this.
Proof.
  intros [p [[|]]] Hh; simpl in Hh; try discriminate.
  split; reflexivity.
Qed.

Lemma retry_noop_when_healthy_witness :
  hasError (state sampleBoundary) = false
  /\ handleRetry sampleBoundary = sampleBoundary.
Proof.
  split; [reflexivity|].
  exact (proj1 (retry_noop_when_healthy sampleBoundary eq_refl)).
Defined.

(** X2. While [hasError] is true, render passes, however many and whatever
    the descendants would do, never render the children: the instance and the
    trace stay as they are (no log entry, no report) and the view is the
    fallback view. *)
Theorem faulted_rerenders_are_silent :
  forall (reporter : Reporter) (d : Descendants) (ds : list Descendants)
         (this : ErrorBoundary) (v : ReactNode) (tr : list Event),
    hasError (state this) = true ->
    session reporter (map RenderWith (d :: ds))
      {| instance := this; view := v; completion := Normal tt; trace := tr |}
    = {| instance := this; view := fallbackView;
         completion := Normal tt; trace := tr |}.
Proof.
  intros reporter d ds. revert d.
  induction ds as [|d' ds IH]; intros d this v tr Hf.
  - simpl map. rewrite session_cons. rewrite advance_faulted_render by exact Hf.
    reflexivity.
  - change (map RenderWith (d :: d' :: ds))
      with (RenderWith d :: map RenderWith (d' :: ds)).
    rewrite session_cons, advance_faulted_render by exact Hf.
    apply IH. exact Hf.
Qed.

Lemma faulted_rerenders_are_silent_witness :
  hasError (state (withState sampleBoundary Faulted)) = true
  /\ trace (session reporterDown
              (map RenderWith [alwaysRaising; alwaysRendering; alwaysRaising])
              {| instance := withState sampleBoundary Faulted; view := RNull;
                 completion := Normal tt; trace := [] |}) = [].
Proof.
  split; [reflexivity|].
  exact (f_equal trace
           (faulted_rerenders_are_silent reporterDown alwaysRaising
              [alwaysRendering; alwaysRaising]
              (withState sampleBoundary Faulted) RNull [] eq_refl)).
Defined.

(** X3. No limit on retries: when the children raise the same error at every
    attempt and the reporter's call returns, a first render followed by [n]
    retries ends faulted with the fallback view on screen, and the reporter has
    been called [n + 1] more times, each time with that error and its
    context. *)
Theorem persistent_fault_reports_each_round :
  forall (reporter : Reporter) (descendants : Descendants) (e : Error)
         (i : ErrorInfo) (v : Returned) (n : nat)
         (this : ErrorBoundary) (v0 : ReactNode) (tr : list Event),
    hasError (state this) = false ->
    descendants (children (props this)) = Raised e i ->
    reporter e (Some {| extra := i |}) = Returns v ->
    let after := session reporter (retryRounds descendants n)
                   {| instance := this; view := v0;
                      completion := Normal tt; trace := tr |} in
    instance after = withState this Faulted
    /\ view after = fallbackView
    /\ completion after = Normal tt
    /\ reports (trace after)
       = reports tr ++ repeat (e, Some {| extra := i |}) (S n).
Proof.
  intros reporter descendants e i v n.
  induction n as [|k IH]; intros this v0 tr Hh Hd Hr after; subst after.
  - cbn [retryRounds]. rewrite session_cons.
    rewrite (advance_healthy_raise _ _ _ _ _ _ _ _ Hh Hd Hr).
    cbn [session fold_left instance view completion trace].
    repeat split. now rewrite reports_app.
  - cbn [retryRounds]. rewrite !session_cons.
    rewrite (advance_healthy_raise _ _ _ _ _ _ _ _ Hh Hd Hr).
    rewrite advance_click_fallback.
    destruct (IH (handleRetry (withState this Faulted)) fallbackView
                ((tr ++ [EvStateUpdate Faulted;
                         EvConsoleLog "Error caught in ErrorBoundary:" e i;
                         EvCapture e (Some {| extra := i |})])
                 ++ [EvStateUpdate Healthy])
                eq_refl Hd Hr) as (Hi & Hv & Hc & Hrep).
    split; [exact Hi|]. split; [exact Hv|]. split; [exact Hc|].
    rewrite Hrep, !reports_app. cbn [reports flat_map app].
    rewrite app_nil_r, <- app_assoc. reflexivity.
Qed.

Lemma persistent_fault_reports_each_round_witness :
  hasError (state sampleBoundary) = false
  /\ alwaysRaising (children (props sampleBoundary)) = Raised (newError "x") sampleInfo
  /\ reporterUp (newError "x") (Some {| extra := sampleInfo |}) = Returns (EventId "e1")
  /\ length (reports (trace (session reporterUp (retryRounds alwaysRaising 2)
                               {| instance := sampleBoundary; view := RNull;
                                  completion := Normal tt; trace := [] |}))) = 3.
Proof.
  split; [reflexivity|]. split; [reflexivity|]. split; [reflexivity|].
  exact (f_equal (@length _) (proj2 (proj2 (proj2
     (persistent_fault_reports_each_round reporterUp alwaysRaising (newError "x")
        sampleInfo (EventId "e1") 2 sampleBoundary RNull []
        eq_refl eq_refl eq_refl))))).
Defined.

(** X4. Recovery: when the children raise, the reporter's call returns, the
    user retries and the children then render, the boundary shows their output,
    its instance is the healthy one it started as, and the reporter has been
    called once in all. *)
Theorem recovery_after_retry :
  forall (reporter : Reporter) (failing working : Descendants) (e : Error)
         (i : ErrorInfo) (v : Returned) (out : ReactNode)
         (this : ErrorBoundary) (v0 : ReactNode) (tr : list Event),
    hasError (state this) = false ->
    failing (children (props this)) = Raised e i ->
    reporter e (Some {| extra := i |}) = Returns v ->
    working (children (props this)) = Rendered out ->
    let after := session reporter
                   [RenderWith failing; ClickRetry; RenderWith working]
                   {| instance := this; view := v0;
                      completion := Normal tt; trace := tr |} in
    instance after = this
    /\ view after = out
    /\ completion after = Normal tt
    /\ reports (trace after) = reports tr ++ [(e, Some {| extra := i |})].
Proof.
  intros reporter failing working e i v out this v0 tr Hh Hf Hr Hw after.
  subst after. rewrite !session_cons.
  rewrite (advance_healthy_raise _ _ _ _ _ _ _ _ Hh Hf Hr).
  rewrite advance_click_fallback.
  rewrite (advance_healthy_render reporter working
             (handleRetry (withState this Faulted)) fallbackView _ out eq_refl Hw).
  cbn [session fold_left instance view completion trace].
  split.
  { destruct this as [p [fl]]. cbn in Hh. subst fl. reflexivity. }
  repeat split.
  rewrite !reports_app. cbn [reports flat_map app].
  now rewrite app_nil_r.
Qed.

Lemma recovery_after_retry_witness :
  hasError (state sampleBoundary) = false
  /\ view (session reporterUp
             [RenderWith alwaysRaising; ClickRetry; RenderWith alwaysRendering]
             {| instance := sampleBoundary; view := RNull;
                completion := Normal tt; trace := [] |}) = RText "page".
Proof.
  split; [reflexivity|].
  exact (proj1 (proj2
    (recovery_after_retry reporterUp alwaysRaising alwaysRendering (newError "x")
       sampleInfo (EventId "e1") (RText "page") sampleBoundary RNull []
       eq_refl eq_refl eq_refl eq_refl))).
Defined.

Lemma reports_length_app (tr tr' : list Event) :
  length (reports (tr ++ tr')) = length (reports tr) + length (reports tr').
Proof. now rewrite reports_app, length_app. Qed.

Lemma advance_report_budget (reporter : Reporter) (inp : Input) (q : Pass) (k : nat) :
  length (reports (trace q))
    + (if hasError (state (instance q)) then 0 else 1) <= 1 + k ->
  length (reports (trace (advance reporter inp q)))
    + (if hasError (state (instance (advance reporter inp q))) then 0 else 1)
  <= 1 + k + retryClicks [inp].
Proof.
  intro Hq. advance_cases q inp;
    rewrite ?Hfl in *; rewrite ?reports_length_app; rewrite ?app_nil_r;
    cbn [reports flat_map app length retryClicks filter state hasError
         withState handleRetry setState hasError_patch Faulted];
    try lia.
  all: destruct (hasError (state (instance q))); lia.
Qed.

Lemma session_report_budget (reporter : Reporter) (inputs : list Input) :
  forall (q : Pass) (k : nat),
    length (reports (trace q))
      + (if hasError (state (instance q)) then 0 else 1) <= 1 + k ->
    length (reports (trace (session reporter inputs q)))
      + (if hasError (state (instance (session reporter inputs q))) then 0 else 1)
    <= 1 + k + retryClicks inputs.
Proof.
  induction inputs as [|inp rest IH]; intros q k Hq.
  - cbn. lia.
  - rewrite session_cons.
    pose proof (advance_report_budget reporter inp q k Hq) as Hstep.
    specialize (IH (advance reporter inp q) (k + retryClicks [inp])
                  ltac:(lia)).
    assert (Hc : retryClicks (inp :: rest) = retryClicks [inp] + retryClicks rest)
      by (unfold retryClicks; destruct inp; reflexivity).
    rewrite Hc. lia.
Qed.

(** X5. At most one report per retry: from construction on, whatever the
    reporter and the descendants do and in whatever order renders and clicks
    come, the number of calls of the reporter is at most one more than the
    number of clicks on retry. *)
Theorem reports_bounded_by_retries :
  forall (reporter : Reporter) (inputs : list Input) (p : ErrorBoundaryProps),
    length (reports (trace (session reporter inputs (constructed p))))
    <= 1 + retryClicks inputs.
Proof.
  intros reporter inputs p.
  pose proof (session_report_budget reporter inputs (constructed p) 0) as H.
  cbn [constructed trace instance constructor state hasError reports flat_map length]
    in H.
  specialize (H ltac:(lia)).
  destruct (hasError _) in H; lia.
Qed.

Lemma advance_reports_mirror (reporter : Reporter) (inp : Input) (q : Pass) :
  reports (trace q) = map reportOf (logged (trace q)) ->
  reports (trace (advance reporter inp q))
  = map reportOf (logged (trace (advance reporter inp q))).
Proof.
  intro Hq. advance_cases q inp;
    rewrite ?reports_app, ?logged_app, ?map_app, ?app_nil_r, <- ?Hq;
    reflexivity.
Qed.

(** X6. Every report is the report of a log entry: if the reports on a trace
    are, one for one and in order, the logged errors with their contexts
    wrapped as [{ extra: errorInfo }], they still are after any sequence of
    renders and clicks, whatever the reporter does. *)
Theorem reports_mirror_log :
  forall (reporter : Reporter) (inputs : list Input) (q : Pass),
    reports (trace q) = map reportOf (logged (trace q)) ->
    reports (trace (session reporter inputs q))
    = map reportOf (logged (trace (session reporter inputs q))).
Proof.
  intros reporter inputs. induction inputs as [|inp rest IH]; intros q Hq.
  - exact Hq.
  - rewrite session_cons. apply IH. now apply advance_reports_mirror.
Qed.

Lemma reports_mirror_log_witness :
  reports (trace (constructed {| children := RText "page" |}))
  = map reportOf (logged (trace (constructed {| children := RText "page" |})))
  /\ reports (trace (session reporterUp (retryRounds alwaysRaising 1)
                       (constructed {| children := RText "page" |})))
     = map reportOf
         (logged (trace (session reporterUp (retryRounds alwaysRaising 1)
                           (constructed {| children := RText "page" |})))).
Proof.
  split; [reflexivity|].
  exact (reports_mirror_log reporterUp (retryRounds alwaysRaising 1)
           (constructed {| children := RText "page" |}) eq_refl).
Defined.

Lemma advance_faulted_shows_fallback (reporter : Reporter) (inp : Input) (q : Pass) :
  (completion q = Normal tt ->
   hasError (state (instance q)) = true -> view q = fallbackView) ->
  completion (advance reporter inp q) = Normal tt ->
  hasError (state (instance (advance reporter inp q))) = true ->
  view (advance reporter inp q) = fallbackView.
Proof.
  advance_cases q inp; intros Hq Hc Hf.
  - unfold render. now rewrite Hfl.
  - congruence.
  - destruct (reporter e (Some {| extra := i |})); [reflexivity | discriminate].
  - discriminate.
  - now apply Hq.
  - now apply Hq.
  - congruence.
Qed.

(** X8. No output of a failed subtree is shown: from construction on, after
    any sequence of renders and clicks in which no exception has left
    [componentDidCatch], an instance whose [hasError] is true has the fallback
    view on screen. *)
Theorem faulted_shows_fallback :
  forall (reporter : Reporter) (inputs : list Input) (p : ErrorBoundaryProps),
    completion (session reporter inputs (constructed p)) = Normal tt ->
    hasError (state (instance (session reporter inputs (constructed p)))) = true ->
    view (session reporter inputs (constructed p)) = fallbackView.
Proof.
  intros reporter inputs p.
  assert (Hgen : forall q,
             (completion q = Normal tt ->
              hasError (state (instance q)) = true -> view q = fallbackView) ->
             completion (session reporter inputs q) = Normal tt ->
             hasError (state (instance (session reporter inputs q))) = true ->
             view (session reporter inputs q) = fallbackView).
  { induction inputs as [|inp rest IH]; intros q Hq.
    - exact Hq.
    - rewrite session_cons. apply IH.
      now apply advance_faulted_shows_fallback. }
  apply Hgen. cbn. discriminate.
Qed.

Lemma faulted_shows_fallback_witness :
  completion (session reporterUp
                [RenderWith alwaysRaising; RenderWith alwaysRendering]
                (constructed {| children := RText "page" |})) = Normal tt
  /\ hasError (state (instance (session reporterUp
                                  [RenderWith alwaysRaising; RenderWith alwaysRendering]
                                  (constructed {| children := RText "page" |})))) = true
  /\ view (session reporterUp
             [RenderWith alwaysRaising; RenderWith alwaysRendering]
             (constructed {| children := RText "page" |})) = fallbackView.
Proof.
  split; [reflexivity|]. split; [reflexivity|].
  exact (faulted_shows_fallback reporterUp
           [RenderWith alwaysRaising; RenderWith alwaysRendering]
           {| children := RText "page" |} eq_refl eq_refl).
Defined.
